(** * HyperFetch, module [arch]: architecture facts and their report

    The module [.hyperfetch/modules/arch.py] has two functions:
    [get_architecture_info], which asks the interpreter's [platform]
    library for the bitness pair and the machine label and stores both in a
    fresh dict, and [run], which prints two coloured, labelled lines from
    such a dict.

    The embedding follows the source: Python values are a small dynamically
    typed universe, dicts live in a store and are passed by reference,
    exceptions and standard output are threaded through a state-and-error
    monad, and the [platform] library is an explicit host parameter.
    [run] is given twice: on a standard output that takes every write, and
    on a stream that may refuse one. *)

From Stdlib Require Import Ascii String DecimalString List Arith Lia.
From stdpp Require Import base option list strings gmap fin_maps.

Set Warnings "-register-all".

(** ** Python values *)

Module Py.

(** The values the module handles: [None], [str], and tuples. *)
Inductive value : Type :=
| VNone
| VStr (s : string)
| VTuple (items : list value).

(** The exceptions that the operations used by the module can raise.
    [OSError] stands for whatever a failing platform query raises;
    [ValueError] is what a write to a closed file raises, and the class of
    [UnicodeEncodeError]. *)
Inductive exn : Type :=
| KeyError (key : string)
| IndexError
| TypeError
| SystemError
| OSError (msg : string)
| ValueError (msg : string).

Inductive outcome (A : Type) : Type :=
| Return (a : A)
| Raise (e : exn).
Arguments Return {A} a.
Arguments Raise {A} e.

Definition is_str (v : value) : bool :=
  match v with VStr _ => true | _ => false end.

Definition is_nonempty_str (v : value) : bool :=
  match v with VStr (String _ _) => true | _ => false end.

(** [len(v) == 2 and all(isinstance(x, str) for x in v)] on a tuple. *)
Definition is_str_pair (v : value) : bool :=
  match v with
  | VTuple [a; b] => is_str a && is_str b
  | _ => false
  end.

(** *** Text *)

Definition chr (n : nat) : string := String (ascii_of_nat n) EmptyString.

Definition nl : string := chr 10.

Fixpoint contains_char (c : ascii) (s : string) : bool :=
  match s with
  | EmptyString => false
  | String d s' => if Ascii.eqb c d then true else contains_char c s'
  end.

Fixpoint count_char (c : ascii) (s : string) : nat :=
  match s with
  | EmptyString => 0
  | String d s' => (if Ascii.eqb c d then 1 else 0) + count_char c s'
  end.

Fixpoint is_prefix (p s : string) : bool :=
  match p, s with
  | EmptyString, _ => true
  | String a p', String b s' => Ascii.eqb a b && is_prefix p' s'
  | String _ _, EmptyString => false
  end.

(** [p in s] for strings. *)
Fixpoint is_substring (p s : string) : bool :=
  is_prefix p s ||
  match s with
  | EmptyString => false
  | String _ s' => is_substring p s'
  end.

Definition hex_digit (n : nat) : string :=
  match n with
  | 0 => "0" | 1 => "1" | 2 => "2" | 3 => "3" | 4 => "4" | 5 => "5"
  | 6 => "6" | 7 => "7" | 8 => "8" | 9 => "9" | 10 => "a" | 11 => "b"
  | 12 => "c" | 13 => "d" | 14 => "e" | _ => "f"
  end.

(** One character of [repr(str)] with the chosen quote.  Bytes from 0x80
    up belong to the UTF-8 sequences of characters outside ASCII and are
    copied, which is [repr] for the printable ones among them only (the
    others [repr] writes as escapes).  The statements below use [repr] on
    ASCII text only. *)
Definition repr_char (quote c : ascii) : string :=
  let n := nat_of_ascii c in
  if Ascii.eqb c quote || Ascii.eqb c "\"%char then String "\"%char (String c EmptyString)
  else if Nat.eqb n 9 then "\t"
  else if Nat.eqb n 10 then "\n"
  else if Nat.eqb n 13 then "\r"
  else if Nat.ltb n 32 || Nat.eqb n 127 then "\x" +:+ hex_digit (n / 16) +:+ hex_digit (n mod 16)
  else String c EmptyString.

Fixpoint repr_chars (quote : ascii) (s : string) : string :=
  match s with
  | EmptyString => EmptyString
  | String c s' => repr_char quote c +:+ repr_chars quote s'
  end.

(** [repr(s)] for a [str]: single quotes, unless the text has a single
    quote and no double quote. *)
Definition repr_str (s : string) : string :=
  let quote :=
    if contains_char "'"%char s && negb (contains_char (ascii_of_nat 34) s)
    then ascii_of_nat 34 else "'"%char in
  String quote (repr_chars quote s) +:+ String quote EmptyString.

Fixpoint join (sep : string) (parts : list string) : string :=
  match parts with
  | [] => EmptyString
  | [p] => p
  | p :: ps => p +:+ sep +:+ join sep ps
  end.

Fixpoint repr (v : value) : string :=
  match v with
  | VNone => "None"
  | VStr s => repr_str s
  | VTuple [x] => "(" +:+ repr x +:+ ",)"
  | VTuple xs => "(" +:+ join ", " (map repr xs) +:+ ")"
  end.

(** [str(v)], which is what a replacement field [{v}] of an f-string
    inserts. *)
Definition str (v : value) : string :=
  match v with
  | VStr s => s
  | _ => repr v
  end.

(** *** Characters

    A [str] is a sequence of characters (code points); the text is held
    here as its UTF-8 bytes.  A character is a leading byte and the
    continuation bytes (0x80 to 0xbf) that follow it. *)

Definition is_continuation (c : ascii) : bool :=
  let n := nat_of_ascii c in Nat.leb 128 n && Nat.ltb n 192.

Fixpoint continuation_prefix (s : string) : string :=
  match s with
  | EmptyString => EmptyString
  | String c s' =>
      if is_continuation c then String c (continuation_prefix s')
      else EmptyString
  end.

(** The character number [j] of [s], once the continuation bytes at the
    front of [s], which end the character before, are passed. *)
Fixpoint char_after (j : nat) (s : string) : option string :=
  match s with
  | EmptyString => None
  | String c s' =>
      if is_continuation c then char_after j s'
      else match j with
           | 0 => Some (String c (continuation_prefix s'))
           | S k => char_after k s'
           end
  end.

(** The character number [i] of [s], if [s] has that many. *)
Definition char_at (i : nat) (s : string) : option string :=
  match s with
  | EmptyString => None
  | String c s' =>
      match i with
      | 0 => Some (String c (continuation_prefix s'))
      | S j => char_after j s'
      end
  end.

(** [v[i]] for a non-negative index. *)
Definition subscript (v : value) (i : nat) : outcome value :=
  match v with
  | VNone => Raise TypeError
  | VStr s =>
      match char_at i s with
      | Some ch => Return (VStr ch)
      | None => Raise IndexError
      end
  | VTuple xs =>
      match xs !! i with
      | Some x => Return x
      | None => Raise IndexError
      end
  end.

End Py.

Import Py.

(** ** The [colorama] constants

    [colorama.ansi] builds every code as [CSI + str(code) + 'm'], with
    [Fore.GREEN] the code 32 and [Style.RESET_ALL] the code 0. *)

Module Colorama.

Definition CSI : string := chr 27 +:+ "[".

Definition code_to_chars (code : nat) : string :=
  CSI +:+ NilEmpty.string_of_uint (Nat.to_uint code) +:+ "m".

Definition Fore_GREEN : string := code_to_chars 32.
Definition Style_RESET_ALL : string := code_to_chars 0.

End Colorama.

(** ** What a terminal shows

    A terminal that honours ANSI control sequences does not display them:
    from ESC [ up to the final byte (0x40 to 0x7e) nothing is shown. *)

Module Terminal.

Inductive mode : Type := Text | Escape | Control.

Definition is_final (c : ascii) : bool :=
  let n := nat_of_ascii c in Nat.leb 64 n && Nat.leb n 126.

Fixpoint display_from (m : mode) (s : string) : string :=
  match s with
  | EmptyString => EmptyString
  | String c s' =>
      match m with
      | Text =>
          if Nat.eqb (nat_of_ascii c) 27 then display_from Escape s'
          else String c (display_from Text s')
      | Escape =>
          if Ascii.eqb c "["%char then display_from Control s'
          else display_from Text s'
      | Control =>
          if is_final c then display_from Text s' else display_from Control s'
      end
  end.

Definition display (s : string) : string := display_from Text s.

End Terminal.

(** ** The host, as the [platform] library reports it

    [platform.architecture()] returns the pair [(bits, linkage)] and
    [platform.machine()] returns a string, empty when the machine type
    cannot be determined; either call may raise instead. *)

Module Platform.

Record host : Type := Host {
  architecture : outcome (string * string);
  machine : outcome string
}.

End Platform.

(** ** Store, standard output and the monad of effects *)

Abbreviation dict := (gmap string value).

Record world : Type := World {
  heap : list dict;
  stdout : string
}.

Definition M (A : Type) : Type := world -> outcome A * world.

Definition ret {A} (a : A) : M A := fun w => (Return a, w).

Definition raise {A} (e : exn) : M A := fun w => (Raise e, w).

Definition bind {A B} (c : M A) (k : A -> M B) : M B :=
  fun w =>
    match c w with
    | (Return a, w') => k a w'
    | (Raise e, w') => (Raise e, w')
    end.

Definition lift {A} (o : outcome A) : M A := fun w => (o, w).

Notation "x <- c ;; k" := (bind c (fun x => k))
  (at level 100, c at next level, right associativity).
Notation "c ;;; k" := (bind c (fun _ => k))
  (at level 100, right associativity).

(** A dict display [{...}] builds a new object: it gets the next free
    address of the store. *)
Definition alloc (d : dict) : M nat :=
  fun w => (Return (length (heap w)), World (heap w ++ [d]) (stdout w)).

(** [info[key]] on a dict reference.  A reference that [alloc] returned is
    always in the store; the [SystemError] branch is for no other. *)
Definition getitem (info : nat) (key : string) : M value :=
  fun w =>
    match heap w !! info with
    | None => (Raise SystemError, w)
    | Some d =>
        match d !! key with
        | Some v => (Return v, w)
        | None => (Raise (KeyError key), w)
        end
    end.

(** [print(s)] on a standard output that takes the write: the text and a
    line break are appended. *)
Definition print (s : string) : M unit :=
  fun w => (Return tt, World (heap w) (stdout w +:+ s +:+ nl)).

(** The stream behind standard output may refuse a write (a closed or
    unwritable file, text that its encoding cannot hold): given what has
    been written so far and the text of the write, it tells the exception
    that the write raises, if any. *)
Definition stream : Type := string -> string -> option exn.

(** A stream that takes every write, and a closed one. *)
Definition writable : stream := fun _ _ => None.

(** [print(s)] on the stream [out]: a refused write raises and leaves the
    output as it was. *)
Definition print_to (out : stream) (s : string) : M unit :=
  fun w =>
    match out (stdout w) (s +:+ nl) with
    | Some e => (Raise e, w)
    | None => (Return tt, World (heap w) (stdout w +:+ s +:+ nl))
    end.

(** ** The module [arch] *)

Module Arch.

Import Platform Colorama.

Definition get_architecture_info (h : host) : M nat :=
  architecture <- lift (Platform.architecture h) ;;
  machine <- lift (Platform.machine h) ;;
  alloc (<["architecture" := VTuple [VStr (fst architecture); VStr (snd architecture)]]>
         (<["machine" := VStr machine]> ∅)).

Definition run (h : host) : M unit :=
  info <- get_architecture_info h ;;
  a <- getitem info "architecture" ;;
  a0 <- lift (subscript a 0) ;;
  print (Fore_GREEN +:+ "Architecture:" +:+ Style_RESET_ALL +:+ " " +:+ Py.str a0) ;;;
  m <- getitem info "machine" ;;
  print (Fore_GREEN +:+ "Machine:" +:+ Style_RESET_ALL +:+ " " +:+ Py.str m).

(** The two [print] statements of [run], for a given [info]. *)
Definition report (info : nat) : M unit :=
  a <- getitem info "architecture" ;;
  a0 <- lift (subscript a 0) ;;
  print (Fore_GREEN +:+ "Architecture:" +:+ Style_RESET_ALL +:+ " " +:+ Py.str a0) ;;;
  m <- getitem info "machine" ;;
  print (Fore_GREEN +:+ "Machine:" +:+ Style_RESET_ALL +:+ " " +:+ Py.str m).

(** [run] and its printing step on a given stream. *)
Definition run_to (out : stream) (h : host) : M unit :=
  info <- get_architecture_info h ;;
  a <- getitem info "architecture" ;;
  a0 <- lift (subscript a 0) ;;
  print_to out (Fore_GREEN +:+ "Architecture:" +:+ Style_RESET_ALL +:+ " " +:+ Py.str a0) ;;;
  m <- getitem info "machine" ;;
  print_to out (Fore_GREEN +:+ "Machine:" +:+ Style_RESET_ALL +:+ " " +:+ Py.str m).


End Arch.

Import Platform Colorama Arch.

(** ** Vocabulary of the statements *)

(** The dict that [get_architecture_info] builds from what the two queries
    returned. *)
Definition record (bits linkage machine : string) : dict :=
  <["architecture" := VTuple [VStr bits; VStr linkage]]>
    (<["machine" := VStr machine]> ∅).

(** A record shaped as the specification describes it, with a string in
    both fields: [run]'s [info["architecture"][0]] then takes the first
    character of the string. *)
Definition flat_record (a m : string) : dict :=
  <["architecture" := VStr a]> (<["machine" := VStr m]> ∅).

(** One output line of [run]: coloured label, reset, a space, the value,
    and the line break that [print] adds. *)
Definition labelled_line (label value : string) : string :=
  Fore_GREEN +:+ label +:+ Style_RESET_ALL +:+ " " +:+ value +:+ nl.

Definition newline : ascii := ascii_of_nat 10.

(** [v[0]] is defined: a non-empty [str] or a non-empty tuple. *)
Definition is_nonempty_seq (v : value) : bool :=
  match v with
  | VStr (String _ _) => true
  | VTuple (_ :: _) => true
  | _ => false
  end.

(** The letter U+044F, two bytes in UTF-8. *)
Definition ya : string :=
  String (ascii_of_nat 209) (String (ascii_of_nat 143) EmptyString).

(** Two hosts used as concrete inputs. *)
Definition linux64 : host := Host (Return ("64bit", "ELF")) (Return "x86_64").
Definition unknown_machine : host := Host (Return ("64bit", "ELF")) (Return "").
Definition w0 : world := World [] "".

(** The byte that starts a control sequence. *)
Definition esc : ascii := ascii_of_nat 27.

(** ** Text lemmas *)

Lemma append_cons (x : ascii) (a b : string) :
  String x a +:+ b = String x (a +:+ b).
Proof. reflexivity. Qed.

Lemma append_assoc (a b c : string) : (a +:+ b) +:+ c = a +:+ (b +:+ c).
Proof.
  induction a as [|x a IH]; [reflexivity |].
  now rewrite !append_cons, IH.
Qed.

Lemma append_empty_r (a : string) : a +:+ "" = a.
Proof.
  induction a as [|x a IH]; [reflexivity |].
  now rewrite append_cons, IH.
Qed.

Lemma count_char_append c (a b : string) :
  count_char c (a +:+ b) = count_char c a + count_char c b.
Proof.
  induction a as [|x a IH]; [reflexivity |].
  rewrite append_cons. simpl. rewrite IH. lia.
Qed.

Lemma count_newline_labelled_line (label value : string) :
  count_char newline label = 0 ->
  count_char newline (labelled_line label value) = 1 + count_char newline value.
Proof.
  intros Hl. unfold labelled_line.
  rewrite !count_char_append, Hl.
  change (count_char newline Fore_GREEN) with 0.
  change (count_char newline Style_RESET_ALL) with 0.
  change (count_char newline " ") with 0.
  change (count_char newline nl) with 1.
  lia.
Qed.

(** ** The store *)

Lemma lookup_fresh (hp : list dict) (d : dict) :
  (hp ++ [d]) !! length hp = Some d.
Proof. now apply list_lookup_middle. Qed.

Lemma lookup_kept (hp : list dict) (d d' : dict) (l : nat) :
  hp !! l = Some d' -> (hp ++ [d]) !! l = Some d'.
Proof. intros H. now apply lookup_app_l_Some. Qed.

Lemma record_architecture bits linkage machine :
  record bits linkage machine !! "architecture"
  = Some (VTuple [VStr bits; VStr linkage]).
Proof. unfold record. now rewrite lookup_insert_eq. Qed.

Lemma record_machine bits linkage machine :
  record bits linkage machine !! "machine" = Some (VStr machine).
Proof.
  unfold record. rewrite lookup_insert_ne by discriminate.
  now rewrite lookup_insert_eq.
Qed.

Lemma record_keys bits linkage machine (k : string) :
  is_Some (record bits linkage machine !! k) ->
  k = "architecture" \/ k = "machine".
Proof.
  unfold record. intros [v Hv].
  destruct (decide (k = "architecture")) as [->|Hk1]; [now left | right].
  rewrite lookup_insert_ne in Hv by congruence.
  destruct (decide (k = "machine")) as [->|Hk2]; [reflexivity |].
  rewrite lookup_insert_ne in Hv by congruence.
  now rewrite lookup_empty in Hv.
Qed.

(** ** How the two functions evaluate *)

Lemma run_is_collect_then_report (h : host) :
  run h = (info <- get_architecture_info h ;; report info).
Proof. reflexivity. Qed.

Lemma get_architecture_info_returns h w bits linkage m :
  architecture h = Return (bits, linkage) ->
  machine h = Return m ->
  get_architecture_info h w
  = (Return (length (heap w)),
     World (heap w ++ [record bits linkage m]) (stdout w)).
Proof.
  intros Ha Hm. unfold get_architecture_info, bind, lift, alloc.
  now rewrite Ha, Hm.
Qed.

(** A successful call has both queries successful. *)
Lemma get_architecture_info_inv h w info w' :
  get_architecture_info h w = (Return info, w') ->
  exists bits linkage m,
    architecture h = Return (bits, linkage) /\ machine h = Return m.
Proof.
  unfold get_architecture_info, bind, lift, alloc.
  destruct (architecture h) as [[bits linkage]|e]; [|discriminate].
  destruct (machine h) as [m|e]; [|discriminate].
  intros _. now exists bits, linkage, m.
Qed.

(** The store only grows: what was there stays as it was. *)
Lemma get_architecture_info_heap h w :
  exists added, heap (snd (get_architecture_info h w)) = heap w ++ added.
Proof.
  unfold get_architecture_info, bind, lift, alloc.
  destruct (architecture h) as [[bits linkage]|e]; simpl.
  - destruct (machine h) as [m|e]; simpl; [eexists; reflexivity |].
    exists []. now rewrite app_nil_r.
  - exists []. now rewrite app_nil_r.
Qed.

Lemma report_heap info w : heap (snd (report info w)) = heap w.
Proof.
  unfold report, bind, getitem, lift, print.
  destruct (heap w !! info) as [d|] eqn:Hd; simpl; [|reflexivity].
  destruct (d !! "architecture") as [a|]; simpl; [|reflexivity].
  destruct (subscript a 0) as [a0|e]; simpl; [|reflexivity].
  rewrite Hd. destruct (d !! "machine") as [m|]; reflexivity.
Qed.

Lemma report_returns info w d a a0 m :
  heap w !! info = Some d ->
  d !! "architecture" = Some a ->
  subscript a 0 = Return a0 ->
  d !! "machine" = Some m ->
  report info w
  = (Return tt,
     World (heap w)
       (stdout w +:+ labelled_line "Architecture:" (Py.str a0)
                 +:+ labelled_line "Machine:" (Py.str m))).
Proof.
  intros Hd Ha H0 Hm. unfold report, bind, getitem, lift, print; simpl.
  rewrite Hd, Ha, H0; simpl. rewrite Hd, Hm; simpl.
  unfold labelled_line. now rewrite !append_assoc.
Qed.

Lemma run_returns h w bits linkage m :
  architecture h = Return (bits, linkage) ->
  machine h = Return m ->
  run h w
  = (Return tt,
     World (heap w ++ [record bits linkage m])
       (stdout w +:+ labelled_line "Architecture:" bits
                 +:+ labelled_line "Machine:" m)).
Proof.
  intros Ha Hm. rewrite run_is_collect_then_report. unfold bind.
  rewrite (get_architecture_info_returns h w bits linkage m Ha Hm).
  rewrite (report_returns _ _ (record bits linkage m)
             (VTuple [VStr bits; VStr linkage]) (VStr bits) (VStr m));
    [reflexivity | apply lookup_fresh | apply record_architecture
    | reflexivity | apply record_machine].
Qed.

(** ** The record that the collector returns *)

(** C1, as stated, fails: on the host [linux64] the call succeeds and the
    record's field [architecture] is a tuple, so not both fields of the
    record are strings. *)
Lemma architecture_field_is_not_a_str :
  ~ (forall h w info w' d,
       get_architecture_info h w = (Return info, w') ->
       heap w' !! info = Some d ->
       exists a m,
         d !! "architecture" = Some a /\ d !! "machine" = Some m /\
         is_str a = true /\ is_str m = true).
Proof.
  intros claim.
  destruct (claim linux64 w0 0 (World [record "64bit" "ELF" "x86_64"] "")
              (record "64bit" "ELF" "x86_64") eq_refl eq_refl)
    as (a & m & Ha & _ & Hstr & _).
  rewrite record_architecture in Ha. injection Ha as <-. discriminate Hstr.
Qed.

(** C1, amended: whenever both platform queries succeed,
    [get_architecture_info] returns a record with exactly the fields
    [architecture] and [machine]; [machine] is a string (possibly empty),
    [architecture] is the pair of strings (bits, linkage) that the platform
    returned, and neither is [None]. *)
Theorem get_architecture_info_field_types h w bits linkage m :
  architecture h = Return (bits, linkage) ->
  machine h = Return m ->
  exists info w' d,
    get_architecture_info h w = (Return info, w') /\
    heap w' !! info = Some d /\
    d !! "architecture" = Some (VTuple [VStr bits; VStr linkage]) /\
    d !! "machine" = Some (VStr m) /\
    is_str_pair (VTuple [VStr bits; VStr linkage]) = true /\
    is_str (VStr m) = true /\
    (forall k, is_Some (d !! k) -> k = "architecture" \/ k = "machine").
Proof.
  intros Ha Hm.
  exists (length (heap w)),
         (World (heap w ++ [record bits linkage m]) (stdout w)),
         (record bits linkage m).
  split; [now apply get_architecture_info_returns |].
  split; [apply lookup_fresh |].
  split; [apply record_architecture |].
  split; [apply record_machine |].
  repeat split. apply record_keys.
Qed.

Lemma get_architecture_info_field_types_witness :
  architecture linux64 = Return ("64bit", "ELF") /\
  machine linux64 = Return "x86_64" /\
  exists info w' d,
    get_architecture_info linux64 w0 = (Return info, w') /\
    heap w' !! info = Some d /\
    d !! "architecture" = Some (VTuple [VStr "64bit"; VStr "ELF"]) /\
    d !! "machine" = Some (VStr "x86_64") /\
    is_str_pair (VTuple [VStr "64bit"; VStr "ELF"]) = true /\
    is_str (VStr "x86_64") = true /\
    (forall k, is_Some (d !! k) -> k = "architecture" \/ k = "machine").
Proof.
  split; [reflexivity |]. split; [reflexivity |].
  apply (get_architecture_info_field_types linux64 w0 "64bit" "ELF" "x86_64");
    reflexivity.
Defined.

(** ** The two lines that [run] writes *)

(** C2, as stated, fails: on [linux64] the value of the record's field
    [architecture] is the pair [('64bit', 'ELF')]; neither that value as
    text nor its linkage component occurs anywhere in what [run] writes. *)
Lemma architecture_field_is_not_printed_whole :
  let w1 := snd (get_architecture_info linux64 w0) in
  let out := stdout (snd (run linux64 w0)) in
  fst (get_architecture_info linux64 w0) = Return 0 /\
  heap w1 !! 0 ≫= (fun d : dict => d !! "architecture")
    = Some (VTuple [VStr "64bit"; VStr "ELF"]) /\
  is_substring (Py.str (VTuple [VStr "64bit"; VStr "ELF"])) out = false /\
  is_substring "ELF" out = false.
Proof. vm_compute. repeat split. Qed.

(** C2, amended: for every record that the collector produces, [run]
    completes and writes exactly two [print] lines, the Architecture line
    and then the Machine line; the Architecture line ends with the first
    component of the field [architecture] and the Machine line ends with
    the field [machine], both unchanged.  The linkage component is not
    written.  The text written has two line breaks more than the two
    values contain. *)
Theorem run_writes_two_lines h w bits linkage m :
  architecture h = Return (bits, linkage) ->
  machine h = Return m ->
  exists w' line1 line2,
    run h w = (Return tt, w') /\
    stdout w' = stdout w +:+ (line1 +:+ nl) +:+ (line2 +:+ nl) /\
    line1 = Fore_GREEN +:+ "Architecture:" +:+ Style_RESET_ALL +:+ " " +:+ bits /\
    line2 = Fore_GREEN +:+ "Machine:" +:+ Style_RESET_ALL +:+ " " +:+ m /\
    count_char newline ((line1 +:+ nl) +:+ (line2 +:+ nl))
      = 2 + count_char newline bits + count_char newline m.
Proof.
  intros Ha Hm. do 3 eexists.
  split; [apply (run_returns h w bits linkage m Ha Hm) |].
  split; [| split; [reflexivity | split; [reflexivity |]]].
  - simpl. unfold labelled_line. now rewrite !append_assoc.
  - pose proof (count_newline_labelled_line "Architecture:" bits eq_refl) as H1.
    pose proof (count_newline_labelled_line "Machine:" m eq_refl) as H2.
    unfold labelled_line in H1, H2.
    rewrite count_char_append, !append_assoc, H1, H2. lia.
Qed.

Lemma run_writes_two_lines_witness :
  architecture linux64 = Return ("64bit", "ELF") /\
  machine linux64 = Return "x86_64" /\
  exists w' line1 line2,
    run linux64 w0 = (Return tt, w') /\
    stdout w' = stdout w0 +:+ (line1 +:+ nl) +:+ (line2 +:+ nl) /\
    line1 = Fore_GREEN +:+ "Architecture:" +:+ Style_RESET_ALL +:+ " " +:+ "64bit" /\
    line2 = Fore_GREEN +:+ "Machine:" +:+ Style_RESET_ALL +:+ " " +:+ "x86_64" /\
    count_char newline ((line1 +:+ nl) +:+ (line2 +:+ nl))
      = 2 + count_char newline "64bit" + count_char newline "x86_64".
Proof.
  split; [reflexivity |]. split; [reflexivity |].
  apply (run_writes_two_lines linux64 w0 "64bit" "ELF" "x86_64"); reflexivity.
Defined.

(** C3, as stated, fails: on [linux64], whose queries report the bitness
    ["64bit"] and the machine type ["x86_64"], the record's field
    [architecture] is not the string ["64bit"] but the pair
    [('64bit', 'ELF')]. *)
Lemma scenario_record_has_pair_not_bitness_string :
  ~ (forall h w linkage,
       architecture h = Return ("64bit", linkage) ->
       machine h = Return "x86_64" ->
       exists info w1 d,
         get_architecture_info h w = (Return info, w1) /\
         heap w1 !! info = Some d /\
         d !! "architecture" = Some (VStr "64bit") /\
         d !! "machine" = Some (VStr "x86_64")).
Proof.
  intros claim.
  destruct (claim linux64 w0 "ELF" eq_refl eq_refl)
    as (info & w1 & d & Hc & Hd & Ha & _).
  rewrite (get_architecture_info_returns linux64 w0 "64bit" "ELF" "x86_64"
             eq_refl eq_refl) in Hc.
  injection Hc as <- <-.
  change (Some (record "64bit" "ELF" "x86_64") = Some d) in Hd.
  injection Hd as <-.
  rewrite record_architecture in Ha. discriminate Ha.
Qed.

(** C3, amended: on a host whose queries report the bitness ["64bit"],
    with any linkage, and the machine type ["x86_64"], the collector
    returns a record whose field [architecture] is the pair of ["64bit"]
    and the linkage, with ["64bit"] its first component, and whose field
    [machine] is ["x86_64"]; [run] writes two lines that a terminal shows
    as [Architecture: 64bit] and [Machine: x86_64]. *)
Theorem scenario_64bit_x86_64 h w linkage :
  architecture h = Return ("64bit", linkage) ->
  machine h = Return "x86_64" ->
  exists info w1 d w2 out,
    get_architecture_info h w = (Return info, w1) /\
    heap w1 !! info = Some d /\
    d !! "architecture" = Some (VTuple [VStr "64bit"; VStr linkage]) /\
    subscript (VTuple [VStr "64bit"; VStr linkage]) 0 = Return (VStr "64bit") /\
    d !! "machine" = Some (VStr "x86_64") /\
    run h w = (Return tt, w2) /\
    stdout w2 = stdout w +:+ out /\
    out = Fore_GREEN +:+ "Architecture:" +:+ Style_RESET_ALL +:+ " 64bit" +:+ nl
          +:+ Fore_GREEN +:+ "Machine:" +:+ Style_RESET_ALL +:+ " x86_64" +:+ nl /\
    Terminal.display out
      = "Architecture: 64bit" +:+ nl +:+ "Machine: x86_64" +:+ nl.
Proof.
  intros Ha Hm.
  exists (length (heap w)),
         (World (heap w ++ [record "64bit" linkage "x86_64"]) (stdout w)),
         (record "64bit" linkage "x86_64").
  do 2 eexists.
  split; [now apply get_architecture_info_returns |].
  split; [apply lookup_fresh |].
  split; [apply record_architecture |].
  split; [reflexivity |].
  split; [apply record_machine |].
  split; [apply (run_returns h w "64bit" linkage "x86_64" Ha Hm) |].
  split; [reflexivity |].
  split; reflexivity.
Qed.

Lemma scenario_64bit_x86_64_witness :
  architecture linux64 = Return ("64bit", "ELF") /\
  machine linux64 = Return "x86_64" /\
  exists info w1 d w2 out,
    get_architecture_info linux64 w0 = (Return info, w1) /\
    heap w1 !! info = Some d /\
    d !! "architecture" = Some (VTuple [VStr "64bit"; VStr "ELF"]) /\
    subscript (VTuple [VStr "64bit"; VStr "ELF"]) 0 = Return (VStr "64bit") /\
    d !! "machine" = Some (VStr "x86_64") /\
    run linux64 w0 = (Return tt, w2) /\
    stdout w2 = stdout w0 +:+ out /\
    out = Fore_GREEN +:+ "Architecture:" +:+ Style_RESET_ALL +:+ " 64bit" +:+ nl
          +:+ Fore_GREEN +:+ "Machine:" +:+ Style_RESET_ALL +:+ " x86_64" +:+ nl /\
    Terminal.display out
      = "Architecture: 64bit" +:+ nl +:+ "Machine: x86_64" +:+ nl.
Proof.
  split; [reflexivity |]. split; [reflexivity |].
  apply (scenario_64bit_x86_64 linux64 w0 "ELF"); reflexivity.
Defined.

(** ** When the printing step completes *)

Example report_flat_record :
  Terminal.display (stdout (snd (report 0 (World [flat_record "64bit" "x86_64"] ""))))
  = "Architecture: 6" +:+ nl +:+ "Machine: x86_64" +:+ nl.
Proof. reflexivity. Qed.


Lemma run_to_writable h w : run_to writable h w = run h w.
Proof. reflexivity. Qed.






(** C5: when the machine-type query returns the empty string (and the
    bitness query succeeds), the collector returns a record, [run]
    completes, and its second line is the coloured label [Machine:], a
    space and nothing more, shown by a terminal as [Machine: ]. *)
Theorem empty_machine_is_reported h w bits linkage :
  architecture h = Return (bits, linkage) ->
  machine h = Return "" ->
  exists info w1 w2 machine_line,
    get_architecture_info h w = (Return info, w1) /\
    heap w1 !! info ≫= (fun d : dict => d !! "machine") = Some (VStr "") /\
    run h w = (Return tt, w2) /\
    stdout w2
      = stdout w +:+ labelled_line "Architecture:" bits +:+ (machine_line +:+ nl) /\
    machine_line = Fore_GREEN +:+ "Machine:" +:+ Style_RESET_ALL +:+ " " /\
    Terminal.display machine_line = "Machine: ".
Proof.
  intros Ha Hm. do 4 eexists.
  split; [apply (get_architecture_info_returns h w bits linkage "" Ha Hm) |].
  split; [simpl; rewrite lookup_fresh; apply record_machine |].
  split; [apply (run_returns h w bits linkage "" Ha Hm) |].
  split; [| split; reflexivity].
  reflexivity.
Qed.

Lemma empty_machine_is_reported_witness :
  architecture unknown_machine = Return ("64bit", "ELF") /\
  machine unknown_machine = Return "" /\
  exists info w1 w2 machine_line,
    get_architecture_info unknown_machine w0 = (Return info, w1) /\
    heap w1 !! info ≫= (fun d : dict => d !! "machine") = Some (VStr "") /\
    run unknown_machine w0 = (Return tt, w2) /\
    stdout w2
      = stdout w0 +:+ labelled_line "Architecture:" "64bit" +:+ (machine_line +:+ nl) /\
    machine_line = Fore_GREEN +:+ "Machine:" +:+ Style_RESET_ALL +:+ " " /\
    Terminal.display machine_line = "Machine: ".
Proof.
  split; [reflexivity |]. split; [reflexivity |].
  apply (empty_machine_is_reported unknown_machine w0 "64bit" "ELF"); reflexivity.
Defined.

(** ** Repeated calls and the store *)

Lemma get_architecture_info_result h w info w' :
  get_architecture_info h w = (Return info, w') ->
  exists bits linkage m,
    architecture h = Return (bits, linkage) /\ machine h = Return m /\
    info = length (heap w) /\
    w' = World (heap w ++ [record bits linkage m]) (stdout w).
Proof.
  intros H.
  destruct (get_architecture_info_inv h w info w' H)
    as (bits & linkage & m & Ha & Hm).
  rewrite (get_architecture_info_returns h w bits linkage m Ha Hm) in H.
  injection H as <- <-. now exists bits, linkage, m.
Qed.

(** C6: on one host, a call that follows a successful call succeeds too
    and yields a record with the same field values; it is another object
    than the first, which is still in the store as it was.  The same
    holds from any other state of the program: the result depends on the
    host alone. *)
Theorem get_architecture_info_deterministic h w info1 w1 :
  get_architecture_info h w = (Return info1, w1) ->
  (exists info2 w2 d,
     get_architecture_info h w1 = (Return info2, w2) /\
     heap w2 !! info1 = Some d /\ heap w2 !! info2 = Some d /\
     info1 <> info2) /\
  (forall w', exists info' w'' d,
     get_architecture_info h w' = (Return info', w'') /\
     heap w1 !! info1 = Some d /\ heap w'' !! info' = Some d).
Proof.
  intros H.
  destruct (get_architecture_info_result h w info1 w1 H)
    as (bits & linkage & m & Ha & Hm & -> & ->).
  split.
  - do 2 eexists. exists (record bits linkage m).
    split; [apply (get_architecture_info_returns h _ bits linkage m Ha Hm) |].
    simpl. split; [| split].
    + apply lookup_kept, lookup_fresh.
    + apply lookup_fresh.
    + rewrite length_app. simpl. lia.
  - intros w'. do 2 eexists. exists (record bits linkage m).
    split; [apply (get_architecture_info_returns h w' bits linkage m Ha Hm) |].
    simpl. split; apply lookup_fresh.
Qed.

Lemma get_architecture_info_deterministic_witness :
  get_architecture_info linux64 w0
    = (Return 0, World [record "64bit" "ELF" "x86_64"] "") /\
  exists info2 w2 d,
    get_architecture_info linux64 (World [record "64bit" "ELF" "x86_64"] "")
      = (Return info2, w2) /\
    heap w2 !! 0 = Some d /\ heap w2 !! info2 = Some d /\ 0 <> info2.
Proof.
  split; [reflexivity |].
  apply (get_architecture_info_deterministic linux64 w0 0
           (World [record "64bit" "ELF" "x86_64"] "")).
  reflexivity.
Defined.

(** C7, as stated, fails: on the host [unknown_machine] both queries
    succeed, the machine query with the empty string, and the record's
    field [machine] is that empty string. *)
Lemma machine_field_may_be_empty :
  ~ (forall h w info w' d,
       get_architecture_info h w = (Return info, w') ->
       heap w' !! info = Some d ->
       exists a m,
         d !! "architecture" = Some a /\ d !! "machine" = Some m /\
         is_nonempty_str a = true /\ is_nonempty_str m = true).
Proof.
  intros claim.
  destruct (claim unknown_machine w0 0 (World [record "64bit" "ELF" ""] "")
              (record "64bit" "ELF" "") eq_refl eq_refl)
    as (a & m & _ & Hm & _ & Hne).
  rewrite record_machine in Hm. injection Hm as <-. discriminate Hne.
Qed.

(** C7, amended: whenever both queries succeed, the record holds what the
    platform returned and nothing else, the pair (bits, linkage) in
    [architecture] and the machine string in [machine], any of which may
    be empty; the record is a new object, and neither the collector nor
    [run] changes a record that was in the store before, whether the
    queries succeed or not. *)
Theorem collector_passes_through_and_preserves h w :
  (forall bits linkage m,
     architecture h = Return (bits, linkage) ->
     machine h = Return m ->
     exists info w',
       get_architecture_info h w = (Return info, w') /\
       heap w !! info = None /\
       heap w' !! info = Some (record bits linkage m)) /\
  (forall l d,
     heap w !! l = Some d ->
     heap (snd (get_architecture_info h w)) !! l = Some d /\
     heap (snd (run h w)) !! l = Some d).
Proof.
  split.
  - intros bits linkage m Ha Hm. do 2 eexists.
    split; [apply (get_architecture_info_returns h w bits linkage m Ha Hm) |].
    split; [now apply lookup_ge_None | apply lookup_fresh].
  - intros l d Hl.
    destruct (get_architecture_info_heap h w) as [added Hadd].
    assert (heap (snd (get_architecture_info h w)) !! l = Some d) as Hkept.
    { rewrite Hadd. now apply lookup_app_l_Some. }
    split; [exact Hkept |].
    rewrite run_is_collect_then_report. unfold bind.
    destruct (get_architecture_info h w) as [[info|e] w1] eqn:Hc; simpl in *.
    + now rewrite report_heap.
    + exact Hkept.
Qed.

Lemma collector_passes_through_and_preserves_witness :
  (forall bits linkage m,
     architecture unknown_machine = Return (bits, linkage) ->
     machine unknown_machine = Return m ->
     exists info w',
       get_architecture_info unknown_machine
         (World [record "32bit" "" "i686"] "") = (Return info, w') /\
       heap (World [record "32bit" "" "i686"] "") !! info = None /\
       heap w' !! info = Some (record bits linkage m)) /\
  (forall l d,
     heap (World [record "32bit" "" "i686"] "") !! l = Some d ->
     heap (snd (get_architecture_info unknown_machine
                  (World [record "32bit" "" "i686"] ""))) !! l = Some d /\
     heap (snd (run unknown_machine (World [record "32bit" "" "i686"] ""))) !! l
       = Some d).
Proof.
  exact (collector_passes_through_and_preserves unknown_machine
           (World [record "32bit" "" "i686"] "")).
Defined.

(** ** Colour of the labels, and the linkage *)

(** C8: every line that the printing step of [run] writes has one shape:
    the colour code ESC[32m, the label, the reset code ESC[0m, a space,
    the value as it is, a line break; so the label is in colour and the
    value follows the reset.  With a string at [architecture][0] and a
    string under [machine] the step writes the Architecture line with the
    one and then the Machine line with the other; without the key
    [machine] it has written the Architecture line alone; without a first
    element of [architecture] it writes nothing.  On every host whose
    queries succeed, [run] writes these two lines with the bits and the
    machine string. *)
Theorem report_lines_are_coloured info w d :
  heap w !! info = Some d ->
  let coloured := fun label value : string =>
    chr 27 +:+ "[32m" +:+ label +:+ chr 27 +:+ "[0m" +:+ " " +:+ value +:+ nl in
  (forall a v m,
     d !! "architecture" = Some a ->
     subscript a 0 = Return (VStr v) ->
     d !! "machine" = Some (VStr m) ->
     report info w
     = (Return tt,
        World (heap w)
          (stdout w +:+ coloured "Architecture:" v +:+ coloured "Machine:" m))) /\
  (forall a v,
     d !! "architecture" = Some a ->
     subscript a 0 = Return (VStr v) ->
     d !! "machine" = None ->
     stdout (snd (report info w)) = stdout w +:+ coloured "Architecture:" v) /\
  (d !! "architecture" = None \/
   (exists a e, d !! "architecture" = Some a /\ subscript a 0 = Raise e) ->
   stdout (snd (report info w)) = stdout w) /\
  (forall h bits linkage m,
     architecture h = Return (bits, linkage) ->
     machine h = Return m ->
     stdout (snd (run h w))
     = stdout w +:+ coloured "Architecture:" bits +:+ coloured "Machine:" m).
Proof.
  intros Hd coloured. repeat split.
  - intros a v m Ha H0 Hm.
    apply (report_returns info w d a (VStr v) (VStr m) Hd Ha H0 Hm).
  - intros a v Ha H0 Hm.
    unfold report, bind, getitem, lift, print; simpl.
    rewrite Hd, Ha, H0; simpl. rewrite Hd, Hm; simpl.
    unfold coloured. now rewrite !append_assoc.
  - intros [Ha | (a & e & Ha & H0)];
      unfold report, bind, getitem, lift; rewrite Hd, Ha; simpl;
      [reflexivity | now rewrite H0].
  - intros h bits linkage m Ha Hm.
    now rewrite (run_returns h w bits linkage m Ha Hm).
Qed.

Lemma report_lines_are_coloured_witness :
  heap (World [record "64bit" "ELF" "x86_64"] "") !! 0
    = Some (record "64bit" "ELF" "x86_64") /\
  report 0 (World [record "64bit" "ELF" "x86_64"] "")
  = (Return tt,
     World [record "64bit" "ELF" "x86_64"]
       ("" +:+ (chr 27 +:+ "[32m" +:+ "Architecture:" +:+ chr 27 +:+ "[0m"
                +:+ " " +:+ "64bit" +:+ nl)
           +:+ (chr 27 +:+ "[32m" +:+ "Machine:" +:+ chr 27 +:+ "[0m"
                +:+ " " +:+ "x86_64" +:+ nl))).
Proof.
  split; [reflexivity |].
  exact (proj1 (report_lines_are_coloured 0
                  (World [record "64bit" "ELF" "x86_64"] "")
                  (record "64bit" "ELF" "x86_64") eq_refl)
           (VTuple [VStr "64bit"; VStr "ELF"]) "64bit" "x86_64"
           eq_refl eq_refl eq_refl).
Defined.

(** C9: the field [architecture] of the record holds the whole pair that
    the bitness query returned, bits and linkage; [run] writes the bits
    only, and what it writes is the same whatever the linkage is. *)
Theorem architecture_field_holds_pair_run_prints_bits h w bits linkage m :
  architecture h = Return (bits, linkage) ->
  machine h = Return m ->
  exists info w1 d w2,
    get_architecture_info h w = (Return info, w1) /\
    heap w1 !! info = Some d /\
    d !! "architecture" = Some (VTuple [VStr bits; VStr linkage]) /\
    run h w = (Return tt, w2) /\
    stdout w2 = stdout w +:+ labelled_line "Architecture:" bits
                         +:+ labelled_line "Machine:" m /\
    (forall linkage',
       stdout (snd (run (Host (Return (bits, linkage')) (Return m)) w))
       = stdout w2).
Proof.
  intros Ha Hm. do 4 eexists.
  split; [apply (get_architecture_info_returns h w bits linkage m Ha Hm) |].
  split; [apply lookup_fresh |].
  split; [apply record_architecture |].
  split; [apply (run_returns h w bits linkage m Ha Hm) |].
  split; [reflexivity |].
  intros linkage'.
  now rewrite (run_returns (Host (Return (bits, linkage')) (Return m)) w
                 bits linkage' m eq_refl eq_refl).
Qed.

Lemma architecture_field_holds_pair_run_prints_bits_witness :
  architecture linux64 = Return ("64bit", "ELF") /\
  machine linux64 = Return "x86_64" /\
  exists info w1 d w2,
    get_architecture_info linux64 w0 = (Return info, w1) /\
    heap w1 !! info = Some d /\
    d !! "architecture" = Some (VTuple [VStr "64bit"; VStr "ELF"]) /\
    run linux64 w0 = (Return tt, w2) /\
    stdout w2 = stdout w0 +:+ labelled_line "Architecture:" "64bit"
                          +:+ labelled_line "Machine:" "x86_64" /\
    (forall linkage',
       stdout (snd (run (Host (Return ("64bit", linkage')) (Return "x86_64")) w0))
       = stdout w2).
Proof.
  split; [reflexivity |]. split; [reflexivity |].
  apply (architecture_field_holds_pair_run_prints_bits linux64 w0
           "64bit" "ELF" "x86_64"); reflexivity.
Defined.

(** C10: for every record that [get_architecture_info] produces, the
    field [architecture] is a pair, so [info["architecture"][0]] is in
    bounds: the subscript returns a value and does not raise, and the
    printing step, hence [run], completes. *)
Theorem architecture_index_in_bounds h w info w1 d :
  get_architecture_info h w = (Return info, w1) ->
  heap w1 !! info = Some d ->
  exists a x y,
    d !! "architecture" = Some a /\
    a = VTuple [x; y] /\
    subscript a 0 = Return x /\
    subscript a 0 <> Raise IndexError /\
    fst (report info w1) = Return tt /\
    fst (run h w) = Return tt.
Proof.
  intros H Hd.
  destruct (get_architecture_info_result h w info w1 H)
    as (bits & linkage & m & Ha & Hm & -> & ->).
  simpl in Hd. rewrite lookup_fresh in Hd. injection Hd as <-.
  exists (VTuple [VStr bits; VStr linkage]), (VStr bits), (VStr linkage).
  split; [apply record_architecture |].
  split; [reflexivity |]. split; [reflexivity |]. split; [discriminate |].
  split.
  - rewrite (report_returns _ _ (record bits linkage m)
               (VTuple [VStr bits; VStr linkage]) (VStr bits) (VStr m));
      [reflexivity | apply lookup_fresh | apply record_architecture
      | reflexivity | apply record_machine].
  - now rewrite (run_returns h w bits linkage m Ha Hm).
Qed.

Lemma architecture_index_in_bounds_witness :
  get_architecture_info linux64 w0
    = (Return 0, World [record "64bit" "ELF" "x86_64"] "") /\
  exists a x y,
    record "64bit" "ELF" "x86_64" !! "architecture" = Some a /\
    a = VTuple [x; y] /\
    subscript a 0 = Return x /\
    subscript a 0 <> Raise IndexError /\
    fst (report 0 (World [record "64bit" "ELF" "x86_64"] "")) = Return tt /\
    fst (run linux64 w0) = Return tt.
Proof.
  split; [reflexivity |].
  apply (architecture_index_in_bounds linux64 w0 0
           (World [record "64bit" "ELF" "x86_64"] "")
           (record "64bit" "ELF" "x86_64")); reflexivity.
Defined.

(** ** When a query raises *)

(** X1: [get_architecture_info] raises exactly when a query raises, and
    then with the exception of the first query that fails: that of the
    bitness query, whatever the machine query would do, or else that of
    the machine query.  In that case no dict is built and nothing is
    written. *)
Theorem get_architecture_info_raises_first_failure h w e :
  (fst (get_architecture_info h w) = Raise e <->
   architecture h = Raise e \/
   exists p, architecture h = Return p /\ machine h = Raise e) /\
  (fst (get_architecture_info h w) = Raise e ->
   snd (get_architecture_info h w) = w).
Proof.
  unfold get_architecture_info, bind, lift, alloc.
  destruct (architecture h) as [p|e1]; simpl.
  - destruct (machine h) as [m|e2]; simpl.
    + split; [split |]; try discriminate.
      intros [H | (p' & _ & H)]; discriminate H.
    + split; [split |]; [| | reflexivity].
      * intros H. right. exists p. split; [reflexivity | congruence].
      * intros [H | (p' & _ & H)]; [discriminate H | congruence].
  - split; [split |]; [| | reflexivity].
    + intros H. left. congruence.
    + intros [H | (p' & H & _)]; [congruence | discriminate H].
Qed.


(** ** The printing step on records that the collector did not build *)

(** X3: a missing key raises [KeyError] with the key's name.  Without
    [architecture] nothing is written, whether [machine] is there or not;
    without [machine] the Architecture line has been written before the
    exception. *)
Theorem report_missing_key info w d :
  heap w !! info = Some d ->
  (d !! "architecture" = None ->
   report info w = (Raise (KeyError "architecture"), w)) /\
  (forall a a0,
     d !! "architecture" = Some a ->
     subscript a 0 = Return a0 ->
     d !! "machine" = None ->
     report info w
     = (Raise (KeyError "machine"),
        World (heap w)
          (stdout w +:+ labelled_line "Architecture:" (Py.str a0)))).
Proof.
  intros Hd. split.
  - intros Ha. unfold report, bind, getitem. now rewrite Hd, Ha.
  - intros a a0 Ha H0 Hm. unfold report, bind, getitem, lift, print; simpl.
    rewrite Hd, Ha, H0; simpl. rewrite Hd, Hm.
    unfold labelled_line. now rewrite !append_assoc.
Qed.

Lemma report_missing_key_witness :
  heap (World [delete "machine" (record "64bit" "ELF" "x86_64")] "") !! 0
    = Some (delete "machine" (record "64bit" "ELF" "x86_64")) /\
  report 0 (World [delete "machine" (record "64bit" "ELF" "x86_64")] "")
  = (Raise (KeyError "machine"),
     World [delete "machine" (record "64bit" "ELF" "x86_64")]
       ("" +:+ labelled_line "Architecture:" "64bit")).
Proof.
  split; [reflexivity |].
  exact (proj2 (report_missing_key 0
                  (World [delete "machine" (record "64bit" "ELF" "x86_64")] "")
                  (delete "machine" (record "64bit" "ELF" "x86_64")) eq_refl)
           (VTuple [VStr "64bit"; VStr "ELF"]) (VStr "64bit")
           eq_refl eq_refl eq_refl).
Defined.

(** X4: when the field [architecture] holds a value without a first
    element, the step raises before it writes anything, whatever the field
    [machine] holds: [TypeError] for [None], [IndexError] for the empty
    string and the empty tuple. *)
Theorem report_architecture_without_first_element info w d a :
  heap w !! info = Some d ->
  d !! "architecture" = Some a ->
  is_nonempty_seq a = false ->
  report info w
  = (Raise (match a with VNone => TypeError | _ => IndexError end), w).
Proof.
  intros Hd Ha Hne. unfold report, bind, getitem, lift. rewrite Hd, Ha.
  destruct a as [|[|c s]|[|x xs]]; try discriminate Hne; reflexivity.
Qed.

Lemma report_architecture_without_first_element_witness :
  heap (World [<["architecture" := VNone]> ∅] "") !! 0
    = Some (<["architecture" := VNone]> ∅) /\
  report 0 (World [<["architecture" := VNone]> ∅] "")
  = (Raise TypeError, World [<["architecture" := VNone]> ∅] "").
Proof.
  split; [reflexivity |].
  apply (report_architecture_without_first_element 0
           (World [<["architecture" := VNone]> ∅] "")
           (<["architecture" := VNone]> ∅) VNone); reflexivity.
Defined.

(** X5: when the field [architecture] holds a non-empty string instead of
    a pair, the Architecture line shows its first character only, that is
    its leading byte with the continuation bytes that follow it; the
    Machine line is written as usual. *)
Theorem report_string_architecture_prints_first_character
    info w d (c : ascii) (s m : string) :
  heap w !! info = Some d ->
  d !! "architecture" = Some (VStr (String c s)) ->
  d !! "machine" = Some (VStr m) ->
  report info w
  = (Return tt,
     World (heap w)
       (stdout w
        +:+ labelled_line "Architecture:" (String c (continuation_prefix s))
        +:+ labelled_line "Machine:" m)).
Proof.
  intros Hd Ha Hm.
  now rewrite (report_returns info w d (VStr (String c s))
                 (VStr (String c (continuation_prefix s))) (VStr m)
                 Hd Ha eq_refl Hm).
Qed.

Lemma report_string_architecture_prints_first_character_witness :
  heap (World [flat_record (ya +:+ "64") "x86_64"] "") !! 0
    = Some (flat_record (ya +:+ "64") "x86_64") /\
  report 0 (World [flat_record (ya +:+ "64") "x86_64"] "")
  = (Return tt,
     World [flat_record (ya +:+ "64") "x86_64"]
       ("" +:+ labelled_line "Architecture:" ya
           +:+ labelled_line "Machine:" "x86_64")).
Proof.
  split; [reflexivity |].
  apply (report_string_architecture_prints_first_character 0
           (World [flat_record (ya +:+ "64") "x86_64"] "")
           (flat_record (ya +:+ "64") "x86_64")
           (ascii_of_nat 209) (String (ascii_of_nat 143) "64") "x86_64");
    reflexivity.
Defined.

(** X6: the printing step reads the fields [architecture] and [machine]
    of its record and nothing else: two records that agree on these two
    keys, at any addresses and with any other keys, give the same outcome
    and the same text after the same earlier output. *)
Theorem report_reads_two_fields_only info info' w w' d d' :
  heap w !! info = Some d ->
  heap w' !! info' = Some d' ->
  d !! "architecture" = d' !! "architecture" ->
  d !! "machine" = d' !! "machine" ->
  stdout w = stdout w' ->
  fst (report info w) = fst (report info' w') /\
  stdout (snd (report info w)) = stdout (snd (report info' w')).
Proof.
  intros Hd Hd' Ha Hm Hout. unfold report, bind, getitem, lift, print.
  rewrite Hd, Hd', Ha.
  destruct (d' !! "architecture") as [a|]; simpl; [| now split].
  destruct (subscript a 0) as [a0|e]; simpl; [| now split].
  rewrite Hd, Hd', Hm, Hout.
  destruct (d' !! "machine") as [m|]; simpl; now split.
Qed.

Lemma report_reads_two_fields_only_witness :
  let d := record "64bit" "ELF" "x86_64" in
  let d' := <["processor" := VNone]> (record "64bit" "ELF" "x86_64") in
  heap (World [d] "") !! 0 = Some d /\
  heap (World [d; d'] "") !! 1 = Some d' /\
  fst (report 0 (World [d] "")) = fst (report 1 (World [d; d'] "")) /\
  stdout (snd (report 0 (World [d] "")))
  = stdout (snd (report 1 (World [d; d'] ""))).
Proof.
  intros d d'. split; [reflexivity |]. split; [reflexivity |].
  apply (report_reads_two_fields_only 0 1 (World [d] "") (World [d; d'] "") d d');
    reflexivity.
Defined.

(** ** Repeated runs and the displayed text *)

(** X7: two runs in a row on a host whose queries succeed both complete;
    the second writes the same two lines after those of the first, and
    each run leaves one new record in the store. *)
Theorem run_twice h w bits linkage m :
  architecture h = Return (bits, linkage) ->
  machine h = Return m ->
  (run h ;;; run h) w
  = (Return tt,
     World (heap w ++ [record bits linkage m; record bits linkage m])
       (stdout w
        +:+ (labelled_line "Architecture:" bits +:+ labelled_line "Machine:" m)
        +:+ (labelled_line "Architecture:" bits +:+ labelled_line "Machine:" m))).
Proof.
  intros Ha Hm. unfold bind at 1.
  rewrite (run_returns h w bits linkage m Ha Hm).
  rewrite (run_returns h _ bits linkage m Ha Hm). simpl.
  rewrite <- app_assoc. simpl. now rewrite !append_assoc.
Qed.

Lemma run_twice_witness :
  architecture linux64 = Return ("64bit", "ELF") /\
  machine linux64 = Return "x86_64" /\
  (run linux64 ;;; run linux64) w0
  = (Return tt,
     World (heap w0 ++ [record "64bit" "ELF" "x86_64"; record "64bit" "ELF" "x86_64"])
       (stdout w0
        +:+ (labelled_line "Architecture:" "64bit" +:+ labelled_line "Machine:" "x86_64")
        +:+ (labelled_line "Architecture:" "64bit" +:+ labelled_line "Machine:" "x86_64"))).
Proof.
  split; [reflexivity |]. split; [reflexivity |].
  apply (run_twice linux64 w0 "64bit" "ELF" "x86_64"); reflexivity.
Defined.

Lemma not_esc (c : ascii) :
  Ascii.eqb esc c = false -> Nat.eqb (nat_of_ascii c) 27 = false.
Proof.
  intros H. destruct (Nat.eqb_spec (nat_of_ascii c) 27) as [E|]; [| reflexivity].
  assert (c = esc) as ->.
  { rewrite <- (ascii_nat_embedding c), E. reflexivity. }
  rewrite Ascii.eqb_refl in H. discriminate H.
Qed.

(** Text without the control byte is shown as it is. *)
Lemma display_plain (s t : string) :
  contains_char esc s = false ->
  Terminal.display_from Terminal.Text (s +:+ t)
  = s +:+ Terminal.display_from Terminal.Text t.
Proof.
  induction s as [|c s IH]; intros H; [reflexivity |].
  change (contains_char esc (String c s))
    with (if Ascii.eqb esc c then true else contains_char esc s) in H.
  destruct (Ascii.eqb esc c) eqn:Hc; [discriminate H |].
  rewrite !append_cons.
  change (Terminal.display_from Terminal.Text (String c (s +:+ t)))
    with (if Nat.eqb (nat_of_ascii c) 27
          then Terminal.display_from Terminal.Escape (s +:+ t)
          else String c (Terminal.display_from Terminal.Text (s +:+ t))).
  rewrite (not_esc c Hc). now rewrite IH.
Qed.

Lemma display_labelled_line (label value t : string) :
  contains_char esc label = false ->
  contains_char esc value = false ->
  Terminal.display_from Terminal.Text (labelled_line label value +:+ t)
  = label +:+ " " +:+ value +:+ nl +:+ Terminal.display_from Terminal.Text t.
Proof.
  intros Hl Hv. unfold labelled_line. rewrite !append_assoc.
  change (Terminal.display_from Terminal.Text
            (Fore_GREEN +:+ label +:+ Style_RESET_ALL +:+ " " +:+ value +:+ nl +:+ t))
    with (Terminal.display_from Terminal.Text
            (label +:+ Style_RESET_ALL +:+ " " +:+ value +:+ nl +:+ t)).
  rewrite (display_plain label _ Hl).
  change (Terminal.display_from Terminal.Text
            (Style_RESET_ALL +:+ " " +:+ value +:+ nl +:+ t))
    with (" " +:+ Terminal.display_from Terminal.Text (value +:+ nl +:+ t)).
  rewrite (display_plain value _ Hv).
  now rewrite (display_plain nl t eq_refl).
Qed.

(** X8: on every host whose queries succeed with values free of the
    control byte ESC, what a terminal shows of [run]'s output is the plain
    two-line format: [Architecture: ], the bits and a line break, then
    [Machine: ], the machine string and a line break. *)
Theorem run_displays_plain_format h w bits linkage m :
  architecture h = Return (bits, linkage) ->
  machine h = Return m ->
  contains_char esc bits = false ->
  contains_char esc m = false ->
  exists w' out,
    run h w = (Return tt, w') /\
    stdout w' = stdout w +:+ out /\
    Terminal.display out
    = "Architecture: " +:+ bits +:+ nl +:+ "Machine: " +:+ m +:+ nl.
Proof.
  intros Ha Hm Hb Hmm. do 2 eexists.
  split; [apply (run_returns h w bits linkage m Ha Hm) |].
  split; [reflexivity |].
  unfold Terminal.display.
  rewrite (display_labelled_line "Architecture:" bits _ eq_refl Hb).
  rewrite <- (append_empty_r (labelled_line "Machine:" m)).
  rewrite (display_labelled_line "Machine:" m "" eq_refl Hmm).
  reflexivity.
Qed.

Lemma run_displays_plain_format_witness :
  architecture unknown_machine = Return ("64bit", "ELF") /\
  machine unknown_machine = Return "" /\
  contains_char esc "64bit" = false /\
  contains_char esc "" = false /\
  exists w' out,
    run unknown_machine w0 = (Return tt, w') /\
    stdout w' = stdout w0 +:+ out /\
    Terminal.display out
    = "Architecture: " +:+ "64bit" +:+ nl +:+ "Machine: " +:+ "" +:+ nl.
Proof.
  split; [reflexivity |]. split; [reflexivity |].
  split; [reflexivity |]. split; [reflexivity |].
  apply (run_displays_plain_format unknown_machine w0 "64bit" "ELF" "");
    reflexivity.
Defined.

(** X9: [get_architecture_info] never writes to standard output; it adds
    one dict to the store when it returns and none when it raises, and the
    reference it returns is the address of the dict it added. *)
Theorem get_architecture_info_effects h w :
  stdout (snd (get_architecture_info h w)) = stdout w /\
  match fst (get_architecture_info h w) with
  | Return info =>
      length (heap (snd (get_architecture_info h w))) = S (length (heap w)) /\
      info = length (heap w)
  | Raise _ => heap (snd (get_architecture_info h w)) = heap w
  end.
Proof.
  unfold get_architecture_info, bind, lift, alloc.
  destruct (architecture h) as [p|e1]; simpl; [| now split].
  destruct (machine h) as [m|e2]; simpl; [| now split].
  split; [reflexivity |]. split; [| reflexivity].
  rewrite length_app. simpl. lia.
Qed.
